(** * SimpleHttpOperator (airflow/providers/http/operators/http.py)

    A shallow embedding of the operator's constructor and of its [execute]
    method, with the properties of its contract.

    The operator talks to three collaborators whose code lives outside the
    operator's module: the base class [BaseOperator], the hook [HttpHook]
    and the helper [determine_kwargs].  They are section variables, so every
    theorem holds for any behaviour they may have.  User callables
    ([response_check], [response_filter]) and the hook act on a state [W]
    of the outside world; they may return a value or raise. *)

From stdpp Require Import base strings gmap list.
From Stdlib Require Import ZArith Lia.

Local Open Scope Z_scope.
Local Open Scope string_scope.
Local Open Scope list_scope.
Set Warnings "-register-all".

(** ** Python values *)

(** Identity of a mutable object.  Two containers are the same object
    exactly when they carry the same identity. *)
Definition oid := nat.
Bind Scope nat_scope with oid.

Inductive pyval : Type :=
  | PyNone
  | PyBool (b : bool)
  | PyInt (n : Z)
  | PyStr (s : string)
  | PyTuple (xs : list pyval)
  | PyList (id : oid) (xs : list pyval)
  | PyDict (id : oid) (items : list (pyval * pyval)).

(** Python's truth value testing on the built-in types: [None], [False],
    zero, and empty strings and collections are false. *)
Definition truthy (v : pyval) : bool :=
  match v with
  | PyNone => false
  | PyBool b => b
  | PyInt n => negb (Z.eqb n 0)
  | PyStr s => match s with EmptyString => false | String _ _ => true end
  | PyTuple xs => negb (Nat.eqb (length xs) 0)
  | PyList _ xs => negb (Nat.eqb (length xs) 0)
  | PyDict _ items => negb (Nat.eqb (length items) 0)
  end.

(** The false values as the contract lists them: [None], [False], zero,
    the empty string and the empty collections.  Written from that list,
    to be compared with [truthy], which the code runs. *)
Inductive false_value : pyval -> Prop :=
  | false_None : false_value PyNone
  | false_False : false_value (PyBool false)
  | false_zero : false_value (PyInt 0)
  | false_empty_string : false_value (PyStr EmptyString)
  | false_empty_tuple : false_value (PyTuple [])
  | false_empty_list i : false_value (PyList i [])
  | false_empty_dict i : false_value (PyDict i []).

(** ** Exceptions and outcomes *)

Inductive exn : Type :=
  | AirflowException (msg : string)
  | PyException (cls : string) (msg : string).

Inductive Outcome (A : Type) : Type :=
  | Returned (a : A)
  | Raised (e : exn).
Arguments Returned {A} a.
Arguments Raised {A} e.

(** ** Collaborator data *)

Inductive AuthBase : Type :=
  | HTTPBasicAuth
  | HTTPDigestAuth
  | HTTPProxyAuth
  | CustomAuth (qualname : string).

(** The [requests] response object, as far as the operator looks at it. *)
Record Response : Type := mkResponse {
  status_code : Z;
  text : string;
  response_headers : list (string * string)
}.

Inductive LogLevel : Type := DEBUG | INFO | WARNING | ERROR.

Inductive CallSite : Type := ResponseCheck | ResponseFilter.

(** ** Object allocation *)

(** The allocator state is the next unused identity: every object that
    exists has an identity below it. *)
Definition Alloc (A : Type) : Type := oid -> A * oid.

(** The literal [{}]: a new dict object. *)
Definition new_dict : Alloc pyval :=
  fun n => (PyDict n [], S n).

(** [v or {}]: [v] itself when it is truthy, otherwise the literal is
    evaluated (and only then). *)
Definition or_new_dict (v : pyval) : Alloc pyval :=
  fun n => if truthy v then (v, n) else new_dict n.

Section Operator.

(** State of the world outside the operator (connections, servers,
    whatever the user callables close over). *)
Context {W : Type}.

(** A Python callable: its signature, as [inspect.signature] shows it,
    and its behaviour when called with a response and keyword arguments. *)
Record Callable : Type := mkCallable {
  parameters : list string;
  call : Response -> gmap string pyval -> W -> Outcome pyval * W
}.

(** *** Collaborators that are not part of the operator's module *)

(** [BaseOperator.__init__], called with the remaining keyword arguments:
    may raise, may allocate. *)
Context {BaseOperator : Type}.
Variable BaseOperator_init :
  gmap string pyval -> oid -> Outcome BaseOperator * oid.

(** [HttpHook(method, http_conn_id=..., auth_type=...)] and
    [HttpHook.run(endpoint, data, headers, extra_options)]. *)
Context {Hook : Type}.
Variable HttpHook : string -> string -> AuthBase -> Hook.
Variable HttpHook_run :
  Hook -> option string -> pyval -> pyval -> pyval -> W ->
  Outcome Response * W.

(** [airflow.utils.operator_helpers.determine_kwargs(func, args, kwargs)]:
    inspects the signature of [func]; has no effect, may raise. *)
Variable determine_kwargs :
  Callable -> list Response -> gmap string pyval ->
  Outcome (gmap string pyval).

(** *** The task object *)

Record SimpleHttpOperator : Type := mkSimpleHttpOperator {
  base_operator : BaseOperator;
  http_conn_id : string;
  method : string;
  endpoint : option string;
  headers : pyval;
  data : pyval;
  response_check : option Callable;
  response_filter : option Callable;
  extra_options : pyval;
  log_response : bool;
  auth_type : AuthBase
}.

(** Keyword arguments of the constructor. *)
Record InitArgs : Type := mkInitArgs {
  arg_endpoint : option string;
  arg_method : string;
  arg_data : pyval;
  arg_headers : pyval;
  arg_response_check : option Callable;
  arg_response_filter : option Callable;
  arg_extra_options : pyval;
  arg_http_conn_id : string;
  arg_log_response : bool;
  arg_auth_type : AuthBase;
  arg_kwargs : gmap string pyval
}.

(** The defaults of the constructor's signature. *)
Definition default_args : InitArgs :=
  {| arg_endpoint := None;
     arg_method := "POST";
     arg_data := PyNone;
     arg_headers := PyNone;
     arg_response_check := None;
     arg_response_filter := None;
     arg_extra_options := PyNone;
     arg_http_conn_id := "http_default";
     arg_log_response := false;
     arg_auth_type := HTTPBasicAuth;
     arg_kwargs := ∅ |}.

(** [SimpleHttpOperator.__init__] *)
Definition __init__ (a : InitArgs) : Alloc (Outcome SimpleHttpOperator) :=
  fun n0 =>
    match BaseOperator_init (arg_kwargs a) n0 with
    | (Raised e, n1) => (Raised e, n1)
    | (Returned base, n1) =>
        let '(headers', n2) := or_new_dict (arg_headers a) n1 in
        let '(data', n3) := or_new_dict (arg_data a) n2 in
        let '(extra_options', n4) := or_new_dict (arg_extra_options a) n3 in
        (Returned
           {| base_operator := base;
              http_conn_id := arg_http_conn_id a;
              method := arg_method a;
              endpoint := arg_endpoint a;
              headers := headers';
              data := data';
              response_check := arg_response_check a;
              response_filter := arg_response_filter a;
              extra_options := extra_options';
              log_response := arg_log_response a;
              auth_type := arg_auth_type a |},
         n4)
    end.

(** *** Effects of [execute] *)

(** What [execute] does to its collaborators, in the order it does it. *)
Inductive Event : Type :=
  | EvLog (level : LogLevel) (msg : string)
  | EvHookRun (http : Hook) (endpoint : option string)
              (data headers extra_options : pyval)
  | EvCall (site : CallSite) (response : Response)
           (kwargs : gmap string pyval).

(** The state a run of [execute] threads: the task object [self], the
    effects performed so far, and the outside world. *)
Record TaskRun : Type := mkTaskRun {
  this : SimpleHttpOperator;
  trace : list Event;
  world : W
}.

(** State and exception monad of the method body. *)
Definition M (A : Type) : Type := TaskRun -> Outcome A * TaskRun.

Definition ret {A} (a : A) : M A := fun s => (Returned a, s).

Definition bind {A B} (m : M A) (k : A -> M B) : M B :=
  fun s =>
    match m s with
    | (Returned a, s') => k a s'
    | (Raised e, s') => (Raised e, s')
    end.

Definition raise {A} (e : exn) : M A := fun s => (Raised e, s).

(** [self.<attr>] *)
Definition self {A} (attr : SimpleHttpOperator -> A) : M A :=
  fun s => (Returned (attr (this s)), s).

Definition emit (ev : Event) : M unit :=
  fun s => (Returned tt,
            {| this := this s; trace := trace s ++ [ev]; world := world s |}).

(** Run a collaborator on the outside world. *)
Definition on_world {A} (f : W -> Outcome A * W) : M A :=
  fun s =>
    let '(r, w) := f (world s) in
    (r, {| this := this s; trace := trace s; world := w |}).

(** A pure helper that may raise. *)
Definition lift {A} (r : Outcome A) : M A := fun s => (r, s).

(** [self.log.info(msg)] *)
Definition log_info (msg : string) : M unit := emit (EvLog INFO msg).

(** [http.run(endpoint, data, headers, extra_options)] *)
Definition run (http : Hook) (endpoint : option string)
    (data headers extra_options : pyval) : M Response :=
  bind (emit (EvHookRun http endpoint data headers extra_options))
    (fun _ => on_world (HttpHook_run http endpoint data headers extra_options)).

(** Calling [f] with [response] and the keyword arguments [kwargs], for
    the callable held by attribute [site]. *)
Definition invoke (site : CallSite) (f : Callable) (response : Response)
    (kwargs : gmap string pyval) : M pyval :=
  bind (emit (EvCall site response kwargs))
    (fun _ => on_world (call f response kwargs)).

Declare Scope exec_scope.
Delimit Scope exec_scope with exec.
Notation "x <- m ;; k" := (bind m (fun x => k))
  (at level 100, m at next level, k at level 200, right associativity)
  : exec_scope.
Notation "m1 ;; m2" := (bind m1 (fun _ => m2))
  (at level 100, m2 at level 200, right associativity) : exec_scope.

(** [SimpleHttpOperator.execute] *)
Definition execute (context : gmap string pyval) : M pyval :=
  (method_ <- self method ;;
   http_conn_id_ <- self http_conn_id ;;
   auth_type_ <- self auth_type ;;
   let http := HttpHook method_ http_conn_id_ auth_type_ in
   log_info "Calling HTTP method" ;;
   endpoint_ <- self endpoint ;;
   data_ <- self data ;;
   headers_ <- self headers ;;
   extra_options_ <- self extra_options ;;
   response <- run http endpoint_ data_ headers_ extra_options_ ;;
   log_response_ <- self log_response ;;
   (if log_response_ then log_info (text response) else ret tt) ;;
   response_check_ <- self response_check ;;
   match response_check_ with
   | Some check =>
       kwargs <- lift (determine_kwargs check [response] context) ;;
       passed <- invoke ResponseCheck check response kwargs ;;
       if negb (truthy passed)
       then raise (AirflowException "Response check returned False.")
       else ret tt
   | None => ret tt
   end ;;
   response_filter_ <- self response_filter ;;
   match response_filter_ with
   | Some filter =>
       kwargs <- lift (determine_kwargs filter [response] context) ;;
       invoke ResponseFilter filter response kwargs
   | None => ret (PyStr (text response))
   end)%exec.

(** *** Vocabulary of the contract *)

(** The exception raised when the response check does not pass. *)
Definition ResponseValidationError : exn :=
  AirflowException "Response check returned False.".

(** The HTTP submission of a run: the hook is built from the task's
    attributes and run on them, in the world of the run. *)
Definition http_call (s : TaskRun) : Outcome Response * W :=
  HttpHook_run
    (HttpHook (method (this s)) (http_conn_id (this s)) (auth_type (this s)))
    (endpoint (this s)) (data (this s)) (headers (this s))
    (extra_options (this s)) (world s).

Definition hook_event (s : TaskRun) : Event :=
  EvHookRun
    (HttpHook (method (this s)) (http_conn_id (this s)) (auth_type (this s)))
    (endpoint (this s)) (data (this s)) (headers (this s))
    (extra_options (this s)).

(** The events up to the point where the response has been received and,
    if asked for, logged. *)
Definition request_events (s : TaskRun) (response : Response) : list Event :=
  [EvLog INFO "Calling HTTP method"; hook_event s] ++
  (if log_response (this s) then [EvLog INFO (text response)] else []).

(** The last block of [execute]: the filter, or the response text. *)
Definition filter_step (context : gmap string pyval) (response : Response)
    : M pyval :=
  (response_filter_ <- self response_filter ;;
   match response_filter_ with
   | Some filter =>
       kwargs <- lift (determine_kwargs filter [response] context) ;;
       invoke ResponseFilter filter response kwargs
   | None => ret (PyStr (text response))
   end)%exec.

(** The events one call of [execute] adds to the trace. *)
Definition emitted (context : gmap string pyval) (s : TaskRun) : list Event :=
  drop (length (trace s)) (trace (snd (execute context s))).

Definition is_log (ev : Event) : bool :=
  match ev with EvLog _ _ => true | _ => false end.

Definition is_hook_run (ev : Event) : bool :=
  match ev with EvHookRun _ _ _ _ _ => true | _ => false end.

Definition is_call (site : CallSite) (ev : Event) : bool :=
  match ev, site with
  | EvCall ResponseCheck _ _, ResponseCheck => true
  | EvCall ResponseFilter _ _, ResponseFilter => true
  | _, _ => false
  end.

Definition log_records (tr : list Event) : list Event :=
  List.filter is_log tr.

Definition hook_runs (tr : list Event) : nat :=
  length (List.filter is_hook_run tr).

Definition calls_at (site : CallSite) (tr : list Event) : nat :=
  length (List.filter (is_call site) tr).

(** The response check lets the run through: it is absent, or it is
    called and returns a true value.  [w2] is the world afterwards and
    [evs] the events of the step. *)
Inductive check_passes (op : SimpleHttpOperator)
    (context : gmap string pyval) (response : Response) (w1 : W)
    : W -> list Event -> Prop :=
  | check_absent :
      response_check op = None ->
      check_passes op context response w1 w1 []
  | check_true check kwargs v w2 :
      response_check op = Some check ->
      determine_kwargs check [response] context = Returned kwargs ->
      call check response kwargs w1 = (Returned v, w2) ->
      truthy v = true ->
      check_passes op context response w1 w2
        [EvCall ResponseCheck response kwargs].

(** A computation of the body leaves the task object as it found it. *)
Definition keeps_self {A} (m : M A) : Prop :=
  forall s, this (snd (m s)) = this s.

Definition is_any_call (ev : Event) : bool :=
  match ev with EvCall _ _ _ => true | _ => false end.

(** A computation of the body adds to the trace only events that
    satisfy [P]. *)
Definition emits_only {A} (P : Event -> bool) (m : M A) : Prop :=
  forall s, exists evs,
    trace (snd (m s)) = trace s ++ evs /\ forallb P evs = true.

(** The sentence of the contract on logging, as it is written, in what
    it says about the number of emissions: one when [log_response] is
    set, none otherwise. *)
Definition logs_zero_or_one (context : gmap string pyval) (s : TaskRun)
    : Prop :=
  length (log_records (emitted context s)) =
  if log_response (this s) then 1%nat else 0%nat.

(** *** Runs of [execute], path by path *)

(** The paths through the body of [execute]: the outcome, the events
    added to the trace and the world at the end, with the conditions
    under which the path is taken. *)
Inductive execution (context : gmap string pyval) (s : TaskRun)
    : Outcome pyval -> list Event -> W -> Prop :=
  | run_hook_raised e w1 :
      http_call s = (Raised e, w1) ->
      execution context s (Raised e)
        [EvLog INFO "Calling HTTP method"; hook_event s] w1
  | run_check_kwargs_raised response w1 check e :
      http_call s = (Returned response, w1) ->
      response_check (this s) = Some check ->
      determine_kwargs check [response] context = Raised e ->
      execution context s (Raised e) (request_events s response) w1
  | run_check_raised response w1 check kwargs e w2 :
      http_call s = (Returned response, w1) ->
      response_check (this s) = Some check ->
      determine_kwargs check [response] context = Returned kwargs ->
      call check response kwargs w1 = (Raised e, w2) ->
      execution context s (Raised e)
        (request_events s response ++ [EvCall ResponseCheck response kwargs])
        w2
  | run_check_failed response w1 check kwargs v w2 :
      http_call s = (Returned response, w1) ->
      response_check (this s) = Some check ->
      determine_kwargs check [response] context = Returned kwargs ->
      call check response kwargs w1 = (Returned v, w2) ->
      truthy v = false ->
      execution context s (Raised ResponseValidationError)
        (request_events s response ++ [EvCall ResponseCheck response kwargs])
        w2
  | run_text response w1 w2 evs :
      http_call s = (Returned response, w1) ->
      check_passes (this s) context response w1 w2 evs ->
      response_filter (this s) = None ->
      execution context s (Returned (PyStr (text response)))
        (request_events s response ++ evs) w2
  | run_filter_kwargs_raised response w1 w2 evs flt e :
      http_call s = (Returned response, w1) ->
      check_passes (this s) context response w1 w2 evs ->
      response_filter (this s) = Some flt ->
      determine_kwargs flt [response] context = Raised e ->
      execution context s (Raised e) (request_events s response ++ evs) w2
  | run_filter_called response w1 w2 evs flt kwargs o w3 :
      http_call s = (Returned response, w1) ->
      check_passes (this s) context response w1 w2 evs ->
      response_filter (this s) = Some flt ->
      determine_kwargs flt [response] context = Returned kwargs ->
      call flt response kwargs w2 = (o, w3) ->
      execution context s o
        (request_events s response ++ evs ++
         [EvCall ResponseFilter response kwargs]) w3.

(** The task [op] with its [log_response] attribute set to [b]. *)
Definition with_log_response (b : bool) (op : SimpleHttpOperator)
    : SimpleHttpOperator :=
  {| base_operator := base_operator op;
     http_conn_id := http_conn_id op;
     method := method op;
     endpoint := endpoint op;
     headers := headers op;
     data := data op;
     response_check := response_check op;
     response_filter := response_filter op;
     extra_options := extra_options op;
     log_response := b;
     auth_type := auth_type op |}.

(** The run state with another task object in it. *)
Definition on_task (f : SimpleHttpOperator -> SimpleHttpOperator)
    (s : TaskRun) : TaskRun :=
  {| this := f (this s); trace := trace s; world := world s |}.

(** The events of a trace that are not log records. *)
Definition without_logs (tr : list Event) : list Event :=
  List.filter (fun ev => negb (is_log ev)) tr.


(** How many of the three mapping arguments are false values. *)
Definition falsy_count (a : InitArgs) : nat :=
  length (List.filter (fun v => negb (truthy v))
            [arg_headers a; arg_data a; arg_extra_options a]).

(** *** The task object where the collaborators can reach it *)

(** A Python object is shared: a callable can hold the task in its
    closure or get it from the context, the hook is handed the task's own
    objects, and [self.log] is a property of the base class, which runs
    code of its own on the task.  Here the task object lives in the
    store [W] on which the collaborators act: [task_of] reads it there,
    and every [self.<attr>] of the body reads what is there at that
    moment. *)
Variable task_of : W -> SimpleHttpOperator.

(** What evaluating [self.log] does to the store. *)
Variable log_property : W -> W.

(** [self.<attr>], on the object in the store. *)
Definition self_shared {A} (attr : SimpleHttpOperator -> A) : M A :=
  fun s => (Returned (attr (task_of (world s))), s).

(** [self.log.info(msg)]: the property first, then the record. *)
Definition log_info_shared (msg : string) : M unit :=
  bind (on_world (fun w => (Returned tt, log_property w)))
    (fun _ => emit (EvLog INFO msg)).

(** [SimpleHttpOperator.execute], on the object in the store.  The
    component [this] of the run state plays no part in it. *)
Definition execute_shared (context : gmap string pyval) : M pyval :=
  (method_ <- self_shared method ;;
   http_conn_id_ <- self_shared http_conn_id ;;
   auth_type_ <- self_shared auth_type ;;
   let http := HttpHook method_ http_conn_id_ auth_type_ in
   log_info_shared "Calling HTTP method" ;;
   endpoint_ <- self_shared endpoint ;;
   data_ <- self_shared data ;;
   headers_ <- self_shared headers ;;
   extra_options_ <- self_shared extra_options ;;
   response <- run http endpoint_ data_ headers_ extra_options_ ;;
   log_response_ <- self_shared log_response ;;
   (if log_response_ then log_info_shared (text response) else ret tt) ;;
   response_check_ <- self_shared response_check ;;
   match response_check_ with
   | Some check =>
       kwargs <- lift (determine_kwargs check [response] context) ;;
       passed <- invoke ResponseCheck check response kwargs ;;
       if negb (truthy passed)
       then raise (AirflowException "Response check returned False.")
       else ret tt
   | None => ret tt
   end ;;
   response_filter_ <- self_shared response_filter ;;
   match response_filter_ with
   | Some filter =>
       kwargs <- lift (determine_kwargs filter [response] context) ;;
       invoke ResponseFilter filter response kwargs
   | None => ret (PyStr (text response))
   end)%exec.

(** The sentence of the contract on the task object, as it is written:
    after a run the task object is what it was before, attribute by
    attribute and with nothing added. *)
Definition task_unchanged (context : gmap string pyval) (s : TaskRun)
    : Prop :=
  task_of (world (snd (execute_shared context s))) = task_of (world s).

(** A collaborator that leaves the task object [op] as it is. *)
Definition keeps_task {A} (op : SimpleHttpOperator)
    (f : W -> Outcome A * W) : Prop :=
  forall w, task_of w = op -> task_of (snd (f w)) = op.

(** Two computations of the body do the same from every state that
    satisfies [Inv], keep [Inv], and return only values that satisfy
    [Q]. *)
Definition agrees {A} (Inv : SimpleHttpOperator -> W -> Prop)
    (m m' : M A) (Q : A -> Prop) : Prop :=
  forall s, Inv (this s) (world s) ->
    m s = m' s /\
    Inv (this (snd (m s))) (world (snd (m s))) /\
    forall a, fst (m s) = Returned a -> Q a.

End Operator.

(** ** A concrete deployment

    Used to run the definitions: the world is a counter of the side
    effects of the callables, the hook answers every endpoint but one. *)

(** Modelled from the spec: [determine_kwargs] of
    airflow.utils.operator_helpers, which the operator imports.  The
    callable gets the context values whose keys are among its declared
    parameter names; the other keys are left out, which is not an error. *)
Definition determine_kwargs_spec {W : Type} (func : @Callable W)
    (args : list Response) (kwargs : gmap string pyval)
    : Outcome (gmap string pyval) :=
  Returned (filter (fun kv => kv.1 ∈ parameters func) kwargs).

Module Demo.

Definition World : Type := nat.

Definition Hook : Type := (string * string * AuthBase)%type.

Definition HttpHook (method http_conn_id : string) (auth_type : AuthBase)
    : Hook :=
  (method, http_conn_id, auth_type).

Definition pong : Response :=
  {| status_code := 200; text := "pong"; response_headers := [] |}.

Definition connection_error : exn :=
  PyException "ConnectionError" "connection refused".

Definition HttpHook_run (http : Hook) (endpoint : option string)
    (data headers extra_options : pyval) (w : World)
    : Outcome Response * World :=
  match endpoint with
  | Some "/down" => (Raised connection_error, w)
  | _ => (Returned pong, w)
  end.

Definition BaseOperator_init (kwargs : gmap string pyval) (n : oid)
    : Outcome (gmap string pyval) * oid :=
  (Returned kwargs, n).

(** [lambda response: False], counting its calls. *)
Definition check_false : @Callable World :=
  {| parameters := ["response"];
     call := fun _ _ w => (Returned (PyBool false), S w) |}.

(** [lambda response: len(response.text)], counting its calls. *)
Definition check_length : @Callable World :=
  {| parameters := ["response"];
     call := fun r _ w =>
       (Returned (PyInt (Z.of_nat (String.length (text r)))), S w) |}.

(** [lambda response, ds: (response.text,)], counting its calls by ten. *)
Definition filter_wrap : @Callable World :=
  {| parameters := ["response"; "ds"];
     call := fun r _ w => (Returned (PyTuple [PyStr (text r)]), (10 + w)%nat) |}.


Definition context : gmap string pyval :=
  {[ "ds" := PyStr "2022-01-01" ]}.

Definition task (endpoint : string) (log : bool)
    (check flt : option (@Callable World))
    : @SimpleHttpOperator World (gmap string pyval) :=
  {| base_operator := ∅;
     http_conn_id := "http_default";
     method := "GET";
     endpoint := Some endpoint;
     headers := PyDict 0 [];
     data := PyDict 1 [];
     response_check := check;
     response_filter := flt;
     extra_options := PyDict 2 [];
     log_response := log;
     auth_type := HTTPBasicAuth |}.

Definition start (op : @SimpleHttpOperator World (gmap string pyval))
    : @TaskRun World (gmap string pyval) Hook :=
  {| this := op; trace := []; world := 0%nat |}.

(** What [determine_kwargs_spec] hands to [f] from [context]. *)
Definition kwargs_for (f : @Callable World) : gmap string pyval :=
  filter (fun kv => kv.1 ∈ parameters f) context.

Definition hook_run_event (endpoint : string) : @Event Hook :=
  EvHookRun ("GET", "http_default", HTTPBasicAuth) (Some endpoint)
    (PyDict 1 []) (PyDict 0 []) (PyDict 2 []).

(** Constructor arguments with an empty string for [data] and zero for
    [headers]. *)
Definition falsy_args : @InitArgs World :=
  {| arg_endpoint := Some "/ping";
     arg_method := "GET";
     arg_data := PyStr EmptyString;
     arg_headers := PyInt 0;
     arg_response_check := None;
     arg_response_filter := None;
     arg_extra_options := PyNone;
     arg_http_conn_id := "http_default";
     arg_log_response := false;
     arg_auth_type := HTTPBasicAuth;
     arg_kwargs := ∅ |}.

(** A stand-in for a [determine_kwargs] that raises: it refuses a
    callable whose first parameter is named like a key of the context. *)
Definition determine_kwargs_reserved (func : @Callable World)
    (args : list Response) (kwargs : gmap string pyval)
    : Outcome (gmap string pyval) :=
  match parameters func with
  | name :: _ =>
      match kwargs !! name with
      | Some _ =>
          Raised (PyException "ValueError"
                    "The key in args is part of kwargs and therefore reserved.")
      | None => Returned (filter (fun kv => kv.1 ∈ parameters func) kwargs)
      end
  | [] => Returned ∅
  end.

(** [lambda ds: True], whose only parameter is a context key. *)
Definition check_ds : @Callable World :=
  {| parameters := ["ds"];
     call := fun _ _ w => (Returned (PyBool true), S w) |}.

(** [lambda response: response.json()["status"] == "ok"] on a body
    without that key. *)
Definition check_raises : @Callable World :=
  {| parameters := ["response"];
     call := fun _ _ w => (Raised (PyException "KeyError" "status"), S w) |}.


Definition reserved_key_error : exn :=
  PyException "ValueError"
    "The key in args is part of kwargs and therefore reserved.".

(** [lambda response: v], counting its calls. *)
Definition check_returning (v : pyval) : @Callable World :=
  {| parameters := ["response"];
     call := fun _ _ w => (Returned v, S w) |}.

(** Constructor arguments with [headers] and [data] as given. *)
Definition args_with (headers data : pyval) : @InitArgs World :=
  {| arg_endpoint := Some "/ping";
     arg_method := "GET";
     arg_data := data;
     arg_headers := headers;
     arg_response_check := None;
     arg_response_filter := None;
     arg_extra_options := PyNone;
     arg_http_conn_id := "http_default";
     arg_log_response := false;
     arg_auth_type := HTTPBasicAuth;
     arg_kwargs := ∅ |}.

Definition execute_reserved (context : gmap string pyval)
    : @M World (gmap string pyval) Hook pyval :=
  execute HttpHook HttpHook_run determine_kwargs_reserved context.

Definition execute (context : gmap string pyval)
    : @M World (gmap string pyval) Hook pyval :=
  execute HttpHook HttpHook_run determine_kwargs_spec context.

End Demo.

(** ** A deployment with the task object in the store

    The store holds the attributes of the task that the callables below
    can reach, and a counter of their calls. *)
Module SharedDemo.

(** The callables of the deployment, by name. *)
Inductive Code : Type := counts_calls | retargets.

Record Store : Type := mkStore {
  st_method : string;
  st_check : option Code;
  st_calls : nat
}.

(** [counts_calls] is [lambda response: True], counting its calls.
    [retargets] is [lambda response: setattr(op, "method", "DELETE") or True],
    where [op] is the task that holds it. *)
Definition code (c : Code) : @Callable Store :=
  match c with
  | counts_calls =>
      {| parameters := ["response"];
         call := fun _ _ st =>
           (Returned (PyBool true),
            {| st_method := st_method st;
               st_check := st_check st;
               st_calls := S (st_calls st) |}) |}
  | retargets =>
      {| parameters := ["response"];
         call := fun _ _ st =>
           (Returned (PyBool true),
            {| st_method := "DELETE";
               st_check := st_check st;
               st_calls := S (st_calls st) |}) |}
  end.

Definition task_of (st : Store) : @SimpleHttpOperator Store unit :=
  {| base_operator := tt;
     http_conn_id := "http_default";
     method := st_method st;
     endpoint := Some "/ping";
     headers := PyDict 0 [];
     data := PyDict 1 [];
     response_check := option_map code (st_check st);
     response_filter := None;
     extra_options := PyDict 2 [];
     log_response := false;
     auth_type := HTTPBasicAuth |}.

Definition log_property (st : Store) : Store := st.

Definition HttpHook_run (http : Demo.Hook) (endpoint : option string)
    (data headers extra_options : pyval) (st : Store)
    : Outcome Response * Store :=
  (Returned Demo.pong, st).

(** A task with method [GET] and the check [c], before its run. *)
Definition start (c : Code) : @TaskRun Store unit Demo.Hook :=
  let st := {| st_method := "GET"; st_check := Some c; st_calls := 0 |} in
  {| this := task_of st; trace := []; world := st |}.

Definition execute_shared (context : gmap string pyval)
    : @M Store unit Demo.Hook pyval :=
  execute_shared Demo.HttpHook HttpHook_run determine_kwargs_spec task_of
    log_property context.

Definition task_unchanged (context : gmap string pyval)
    (s : @TaskRun Store unit Demo.Hook) : Prop :=
  task_unchanged Demo.HttpHook HttpHook_run determine_kwargs_spec task_of
    log_property context s.

End SharedDemo.

(** ** Properties of [execute] and of the constructor *)

Section Contract.

Context {W BaseOperator Hook : Type}.
Variable BaseOperator_init :
  gmap string pyval -> oid -> Outcome BaseOperator * oid.
Variable HttpHook : string -> string -> AuthBase -> Hook.
Variable HttpHook_run :
  Hook -> option string -> pyval -> pyval -> pyval -> W ->
  Outcome Response * W.
Variable determine_kwargs :
  @Callable W -> list Response -> gmap string pyval ->
  Outcome (gmap string pyval).

Ltac unfold_exec :=
  cbv beta iota zeta delta
    [execute filter_step bind self log_info run invoke emit on_world lift
     ret raise];
  simpl.
Ltac unfold_monad :=
  cbv beta iota zeta delta
    [bind self log_info run invoke emit on_world lift ret raise];
  simpl.
Ltac frame_unfold := unfold execute, filter_step.
Ltac unfold_init := unfold __init__, or_new_dict, new_dict.
Ltac unfold_call H := unfold http_call in H.
Ltac unfold_events := unfold request_events, hook_event.
Ltac unfold_emitted := unfold emitted.

Local Abbreviation TaskRun := (@TaskRun W BaseOperator Hook).
Local Abbreviation execute :=
  (execute (BaseOperator:=BaseOperator) HttpHook HttpHook_run
     determine_kwargs).
Local Abbreviation filter_step :=
  (filter_step (BaseOperator:=BaseOperator) (Hook:=Hook) determine_kwargs).
Local Abbreviation http_call := (http_call HttpHook HttpHook_run).
Local Abbreviation hook_event := (hook_event HttpHook).
Local Abbreviation request_events := (request_events HttpHook).
Local Abbreviation emitted :=
  (emitted (BaseOperator:=BaseOperator) HttpHook HttpHook_run
     determine_kwargs).
Local Abbreviation check_passes := (check_passes (BaseOperator:=BaseOperator)
                                  (Hook:=Hook) determine_kwargs).
Local Abbreviation __init__ := (__init__ (W:=W) BaseOperator_init).

(** *** Running the body *)

(** Up to the response: the fixed message, the hook run and, if asked
    for, the log of the body; then the check and the filter. *)
Lemma execute_response (context : gmap string pyval) (s : TaskRun)
    response w1 :
  http_call s = (Returned response, w1) ->
  execute context s =
  bind (match response_check (this s) with
        | Some check =>
            bind (lift (determine_kwargs check [response] context))
              (fun kwargs =>
                 bind (invoke ResponseCheck check response kwargs)
                   (fun passed =>
                      if negb (truthy passed)
                      then raise ResponseValidationError
                      else ret tt))
        | None => ret tt
        end)
    (fun _ => filter_step context response)
    {| this := this s;
       trace := trace s ++ request_events s response;
       world := w1 |}.
Proof.
  intros Hcall. unfold_call Hcall.
  unfold_events.
  unfold_exec. rewrite Hcall. simpl.
  destruct (log_response (this s)); simpl; rewrite <- ?app_assoc; reflexivity.
Qed.

(** When the submission raises, nothing follows it. *)
Lemma execute_raised (context : gmap string pyval) (s : TaskRun) e w1 :
  http_call s = (Raised e, w1) ->
  execute context s =
  (Raised e,
   {| this := this s;
      trace := trace s ++ [EvLog INFO "Calling HTTP method"; hook_event s];
      world := w1 |}).
Proof.
  intros Hcall. unfold_call Hcall.
  unfold_events.
  unfold_exec. rewrite Hcall. simpl. rewrite <- ?app_assoc. reflexivity.
Qed.

(** Once the check has let the run through, the filter step is all
    that is left. *)
Lemma execute_passed (context : gmap string pyval) (s : TaskRun)
    response w1 w2 evs :
  http_call s = (Returned response, w1) ->
  check_passes (this s) context response w1 w2 evs ->
  execute context s =
  filter_step context response
    {| this := this s;
       trace := trace s ++ request_events s response ++ evs;
       world := w2 |}.
Proof.
  intros Hcall Hpass. rewrite (execute_response _ _ _ _ Hcall).
  inversion Hpass as [Hnone | check kwargs v w2' Hsome Hkw Hret Htrue];
    subst.
  - rewrite Hnone. unfold_monad. rewrite app_nil_r. reflexivity.
  - rewrite Hsome. unfold_monad. rewrite Hkw, Hret, Htrue. simpl.
    rewrite <- app_assoc. reflexivity.
Qed.

Lemma emitted_app (context : gmap string pyval) (s : TaskRun) r this' evs w :
  execute context s = (r, {| this := this'; trace := trace s ++ evs; world := w |}) ->
  emitted context s = evs.
Proof.
  intros H. unfold_emitted. rewrite H. simpl.
  apply drop_app_length.
Qed.

(** The filter step, when the filter is present and can be called:
    its outcome, value or exception, is the outcome of the step. *)
Lemma filter_step_outcome (context : gmap string pyval) (s : TaskRun)
    response flt kwargs o w :
  response_filter (this s) = Some flt ->
  determine_kwargs flt [response] context = Returned kwargs ->
  call flt response kwargs (world s) = (o, w) ->
  filter_step context response s =
  (o, {| this := this s;
         trace := trace s ++ [EvCall ResponseFilter response kwargs];
         world := w |}).
Proof.
  intros Hflt Hkw Hcall. unfold_exec. rewrite Hflt. simpl.
  rewrite Hkw. simpl. rewrite Hcall. reflexivity.
Qed.

Lemma request_events_calls (s : TaskRun) response site :
  calls_at site (request_events s response) = 0%nat.
Proof.
  unfold_events. destruct (log_response (this s)), site; reflexivity.
Qed.

Lemma calls_at_app site (l k : list (@Event Hook)) :
  calls_at site (l ++ k) = (calls_at site l + calls_at site k)%nat.
Proof.
  unfold calls_at. rewrite List.filter_app, length_app. reflexivity.
Qed.

(** *** Frame: the body never assigns to [self] *)

Lemma keeps_self_ret {A} (a : A) :
  keeps_self (@ret W BaseOperator Hook A a).
Proof. intros s. reflexivity. Qed.

Lemma keeps_self_raise {A} e : keeps_self (@raise W BaseOperator Hook A e).
Proof. intros s. reflexivity. Qed.

Lemma keeps_self_lift {A} (r : Outcome A) :
  keeps_self (@lift W BaseOperator Hook A r).
Proof. intros s. reflexivity. Qed.

Lemma keeps_self_self {A} (attr : SimpleHttpOperator -> A) :
  keeps_self (@self W BaseOperator Hook A attr).
Proof. intros s. reflexivity. Qed.

Lemma keeps_self_emit (ev : @Event Hook) :
  keeps_self (@emit W BaseOperator Hook ev).
Proof. intros s. reflexivity. Qed.

Lemma keeps_self_on_world {A} (f : W -> Outcome A * W) :
  keeps_self (@on_world W BaseOperator Hook A f).
Proof. intros s. unfold on_world. destruct (f (world s)). reflexivity. Qed.

Lemma keeps_self_bind {A B} (m : @M W BaseOperator Hook A) (k : A -> M B) :
  keeps_self m -> (forall a, keeps_self (k a)) -> keeps_self (bind m k).
Proof.
  intros Hm Hk s. unfold bind. specialize (Hm s).
  destruct (m s) as [[a | e] s']; simpl in *.
  - rewrite Hk. exact Hm.
  - exact Hm.
Qed.

Create HintDb frame.
#[local] Hint Resolve keeps_self_ret keeps_self_raise keeps_self_lift
  keeps_self_self keeps_self_emit keeps_self_on_world : frame.

Ltac frame_step :=
  match goal with
  | |- keeps_self (bind _ _) => apply keeps_self_bind; [ | intros ? ]
  | |- keeps_self (log_info _) => apply keeps_self_emit
  | |- keeps_self (run _ _ _ _ _ _) => unfold run
  | |- keeps_self (invoke _ _ _ _) => unfold invoke
  | |- keeps_self (match ?x with _ => _ end) => destruct x
  | |- keeps_self _ => solve [ auto with frame ]
  end.

Lemma keeps_self_filter_step context response :
  keeps_self (filter_step context response).
Proof. frame_unfold. repeat frame_step. Qed.

Lemma keeps_self_execute context : keeps_self (execute context).
Proof. frame_unfold. repeat frame_step. Qed.

(** *** Events: after the response, only the callables are called *)

Lemma emits_only_nothing {A} P (m : @M W BaseOperator Hook A) :
  (forall s, trace (snd (m s)) = trace s) -> emits_only P m.
Proof.
  intros H s. exists []. rewrite H, app_nil_r. split; reflexivity.
Qed.

Lemma emits_only_on_world {A} P (f : W -> Outcome A * W) :
  emits_only P (@on_world W BaseOperator Hook A f).
Proof.
  apply emits_only_nothing. intros s. unfold on_world.
  destruct (f (world s)). reflexivity.
Qed.

Lemma emits_only_emit (P : @Event Hook -> bool) ev :
  P ev = true -> emits_only P (@emit W BaseOperator Hook ev).
Proof.
  intros HP s. exists [ev]. simpl. rewrite HP. split; reflexivity.
Qed.

Lemma emits_only_bind {A B} P (m : @M W BaseOperator Hook A)
    (k : A -> M B) :
  emits_only P m -> (forall a, emits_only P (k a)) -> emits_only P (bind m k).
Proof.
  intros Hm Hk s. unfold bind. destruct (Hm s) as (evs & Htr & Hall).
  destruct (m s) as [[a | e] s']; simpl in *.
  - destruct (Hk a s') as (evs' & Htr' & Hall').
    exists (evs ++ evs'). rewrite Htr', Htr, <- app_assoc, forallb_app.
    rewrite Hall, Hall'. split; reflexivity.
  - exists evs. split; assumption.
Qed.

Ltac events_step :=
  match goal with
  | |- emits_only _ (bind _ _) => apply emits_only_bind; [ | intros ? ]
  | |- emits_only _ (invoke _ _ _ _) => unfold invoke
  | |- emits_only _ (emit _) => apply emits_only_emit; reflexivity
  | |- emits_only _ (on_world _) => apply emits_only_on_world
  | |- emits_only _ (match ?x with _ => _ end) => destruct x
  | |- emits_only _ _ => apply emits_only_nothing; reflexivity
  end.

Lemma filter_step_events context response :
  emits_only (is_call ResponseFilter) (filter_step context response).
Proof. frame_unfold. repeat events_step. Qed.

Lemma is_call_any site (evs : list (@Event Hook)) :
  forallb (is_call site) evs = true -> forallb is_any_call evs = true.
Proof.
  induction evs as [| ev evs IH]; simpl; [reflexivity | ].
  intros H. apply andb_prop in H as [Hev Hevs].
  rewrite (IH Hevs). destruct ev, site; try discriminate; reflexivity.
Qed.

Lemma calls_are_not_logs (evs : list (@Event Hook)) :
  forallb is_any_call evs = true -> log_records evs = [].
Proof.
  induction evs as [| ev evs IH]; simpl; [reflexivity | ].
  intros H. apply andb_prop in H as [Hev Hevs].
  unfold log_records in *. simpl. destruct ev; try discriminate.
  exact (IH Hevs).
Qed.

(** After the response has come in, a run adds calls of the callables
    to the trace and nothing else. *)
Lemma execute_events (context : gmap string pyval) (s : TaskRun)
    response w1 :
  http_call s = (Returned response, w1) ->
  exists calls,
    emitted context s = request_events s response ++ calls /\
    forallb is_any_call calls = true.
Proof.
  intros Hcall. unfold_emitted. rewrite (execute_response _ _ _ _ Hcall).
  match goal with
  | |- context [bind ?m ?k ?s0] =>
      assert (Hev : emits_only is_any_call (bind m k))
  end.
  { apply emits_only_bind.
    - repeat events_step.
    - intros _ s0. destruct (filter_step_events context response s0)
        as (evs & Htr & Hall).
      exists evs. split; [exact Htr | exact (is_call_any _ _ Hall)]. }
  match goal with
  | |- context [bind ?m ?k ?s0] =>
      destruct (Hev s0) as (calls & Htr & Hall); rewrite Htr
  end.
  exists calls. simpl. rewrite <- app_assoc, drop_app_length.
  split; [reflexivity | exact Hall].
Qed.

(** *** Truth values *)

(** The test the code runs is false on the listed false values, and on
    nothing else. *)
Lemma truthy_false_value (v : pyval) : truthy v = false <-> false_value v.
Proof.
  split.
  - destruct v as [ | b | n | str | xs | i xs | i items ]; simpl; intros H.
    + constructor.
    + rewrite H. constructor.
    + apply negb_false_iff, Z.eqb_eq in H. rewrite H. constructor.
    + destruct str; [constructor | discriminate].
    + destruct xs; [constructor | discriminate].
    + destruct xs; [constructor | discriminate].
    + destruct items; [constructor | discriminate].
  - intros H. destruct H; reflexivity.
Qed.

Lemma truthy_true_value (v : pyval) : truthy v = true <-> ~ false_value v.
Proof.
  rewrite <- truthy_false_value. destruct (truthy v); split; intros H;
    try reflexivity; try discriminate; try (intros E; discriminate).
  exfalso. apply H. reflexivity.
Qed.

(** *** The contract of [execute] *)

(** C1. When [response_check] is present and returns [False] on the
    response, [execute] raises the validation error, and the run ends with
    the call of the check: [response_filter] is not called, and the world
    is the one the check left. *)
Theorem check_false_raises_without_filter
    (context : gmap string pyval) (s : TaskRun) response w1 check kwargs w2 :
  http_call s = (Returned response, w1) ->
  response_check (this s) = Some check ->
  determine_kwargs check [response] context = Returned kwargs ->
  call check response kwargs w1 = (Returned (PyBool false), w2) ->
  execute context s =
    (Raised ResponseValidationError,
     {| this := this s;
        trace := trace s ++ request_events s response ++
                 [EvCall ResponseCheck response kwargs];
        world := w2 |})
  /\ calls_at ResponseFilter (emitted context s) = 0%nat.
Proof.
  intros Hcall Hsome Hkw Hret.
  assert (Hrun : execute context s =
    (Raised ResponseValidationError,
     {| this := this s;
        trace := trace s ++ request_events s response ++
                 [EvCall ResponseCheck response kwargs];
        world := w2 |})).
  { rewrite (execute_response _ _ _ _ Hcall), Hsome. unfold_monad.
    rewrite Hkw, Hret. simpl. rewrite <- app_assoc. reflexivity. }
  split; [exact Hrun | ].
  rewrite (emitted_app _ _ _ _ _ _ Hrun), calls_at_app, request_events_calls.
  reflexivity.
Qed.


(** C3. When the HTTP call succeeds and neither callable is set,
    [execute] returns the text of the response, as it is. *)
Theorem no_callables_returns_text
    (context : gmap string pyval) (s : TaskRun) response w1 :
  http_call s = (Returned response, w1) ->
  response_check (this s) = None ->
  response_filter (this s) = None ->
  execute context s =
    (Returned (PyStr (text response)),
     {| this := this s;
        trace := trace s ++ request_events s response;
        world := w1 |}).
Proof.
  intros Hcall Hcheck Hflt.
  rewrite (execute_response _ _ _ _ Hcall), Hcheck. unfold_exec.
  rewrite Hflt. reflexivity.
Qed.

(** C5. When the HTTP submission raises, [execute] raises the same
    exception; the hook was run once, the body of a response was not
    logged, and neither callable was called. *)
Theorem submission_error_propagates
    (context : gmap string pyval) (s : TaskRun) e w1 :
  http_call s = (Raised e, w1) ->
  execute context s =
    (Raised e,
     {| this := this s;
        trace := trace s ++ [EvLog INFO "Calling HTTP method"; hook_event s];
        world := w1 |})
  /\ hook_runs (emitted context s) = 1%nat
  /\ log_records (emitted context s) = [EvLog INFO "Calling HTTP method"]
  /\ calls_at ResponseCheck (emitted context s) = 0%nat
  /\ calls_at ResponseFilter (emitted context s) = 0%nat.
Proof.
  intros Hcall. pose proof (execute_raised context _ _ _ Hcall) as Hrun.
  split; [exact Hrun | ].
  rewrite (emitted_app _ _ _ _ _ _ Hrun). unfold_events.
  repeat split; reflexivity.
Qed.


(** C8. The gate is the truth value of what the check returns, not
    equality with [False]: when the check returns [None], [False], zero,
    an empty string or an empty collection, [execute] raises the
    validation error right after the call of the check; on every other
    value it goes on with the filter step, in which the returned value
    plays no part.  With no filter to run afterwards, the run raises the
    validation error exactly when the value is one of the false ones. *)
Theorem check_gate_is_truthiness
    (context : gmap string pyval) (s : TaskRun)
    response w1 check kwargs v w2 :
  http_call s = (Returned response, w1) ->
  response_check (this s) = Some check ->
  determine_kwargs check [response] context = Returned kwargs ->
  call check response kwargs w1 = (Returned v, w2) ->
  let s' := {| this := this s;
               trace := trace s ++ request_events s response ++
                        [EvCall ResponseCheck response kwargs];
               world := w2 |} in
  (false_value v ->
     execute context s = (Raised ResponseValidationError, s'))
  /\ (~ false_value v ->
      execute context s = filter_step context response s')
  /\ (response_filter (this s) = None ->
      (fst (execute context s) = Raised ResponseValidationError
       <-> false_value v)).
Proof.
  intros Hcall Hsome Hkw Hret s'.
  assert (Hrun : execute context s =
    if truthy v
    then filter_step context response s'
    else (Raised ResponseValidationError, s')).
  { rewrite (execute_response _ _ _ _ Hcall), Hsome. unfold_monad.
    rewrite Hkw, Hret. simpl. subst s'. rewrite <- app_assoc.
    destruct (truthy v); reflexivity. }
  split; [ | split].
  - intros Hv. apply truthy_false_value in Hv. rewrite Hrun, Hv. reflexivity.
  - intros Hv. apply truthy_true_value in Hv. rewrite Hrun, Hv. reflexivity.
  - intros Hnone. rewrite Hrun, <- truthy_false_value.
    destruct (truthy v).
    + unfold_exec. rewrite Hnone. simpl. split; discriminate.
    + simpl. split; reflexivity.
Qed.

(** C4, as the code has it.  Every run emits the fixed message
    [Calling HTTP method] at level INFO before the request.  After it
    there is one more emission, the full text of the response at level
    INFO, when the HTTP call succeeds and [log_response] is set, and no
    other emission otherwise. *)
Theorem log_emissions_of_execute
    (context : gmap string pyval) (s : TaskRun) :
  log_records (emitted context s) =
  EvLog INFO "Calling HTTP method" ::
  match http_call s with
  | (Returned response, _) =>
      if log_response (this s) then [EvLog INFO (text response)] else []
  | (Raised _, _) => []
  end.
Proof.
  destruct (http_call s) as [[response | e] w1] eqn:Hcall.
  - destruct (execute_events context s response w1 Hcall)
      as (calls & Hem & Hall).
    rewrite Hem. unfold log_records.
    rewrite List.filter_app. fold (log_records calls).
    rewrite (calls_are_not_logs _ Hall), app_nil_r.
    unfold_events. destruct (log_response (this s)); reflexivity.
  - rewrite (emitted_app _ _ _ _ _ _ (execute_raised context _ _ _ Hcall)).
    reflexivity.
Qed.

(** C10. With [log_response] set, the text of the response is logged
    before the check is called: the log record comes right before the
    call in the trace, whatever the check then does; and when the check
    returns a false value the run raises the validation error with the
    record in its trace. *)
Theorem body_logged_before_check
    (context : gmap string pyval) (s : TaskRun)
    response w1 check kwargs r w2 :
  log_response (this s) = true ->
  http_call s = (Returned response, w1) ->
  response_check (this s) = Some check ->
  determine_kwargs check [response] context = Returned kwargs ->
  call check response kwargs w1 = (r, w2) ->
  (exists rest,
     emitted context s =
       [EvLog INFO "Calling HTTP method"; hook_event s;
        EvLog INFO (text response);
        EvCall ResponseCheck response kwargs] ++ rest)
  /\ (forall v, r = Returned v -> truthy v = false ->
      fst (execute context s) = Raised ResponseValidationError /\
      emitted context s =
        [EvLog INFO "Calling HTTP method"; hook_event s;
         EvLog INFO (text response);
         EvCall ResponseCheck response kwargs]).
Proof.
  intros Hlog Hcall Hsome Hkw Hret.
  assert (Hreq : request_events s response =
                 [EvLog INFO "Calling HTTP method"; hook_event s;
                  EvLog INFO (text response)]).
  { unfold_events. rewrite Hlog. reflexivity. }
  split.
  - unfold_emitted. rewrite (execute_response _ _ _ _ Hcall), Hsome, Hreq.
    unfold_monad. rewrite Hkw, Hret.
    destruct r as [v | e]; simpl.
    + destruct (truthy v); simpl.
      * match goal with
        | |- context [filter_step context response ?s0] =>
            destruct (filter_step_events context response s0)
              as (evs & Htr & _); rewrite Htr
        end.
        exists evs. simpl. rewrite <- !app_assoc, drop_app_length.
        reflexivity.
      * exists []. rewrite <- !app_assoc, drop_app_length. reflexivity.
    + exists []. rewrite <- !app_assoc, drop_app_length. reflexivity.
  - intros v -> Hfalse.
    assert (Hrun : execute context s =
      (Raised ResponseValidationError,
       {| this := this s;
          trace := trace s ++ request_events s response ++
                   [EvCall ResponseCheck response kwargs];
          world := w2 |})).
    { rewrite (execute_response _ _ _ _ Hcall), Hsome. unfold_monad.
      rewrite Hkw, Hret, Hfalse. simpl. rewrite <- app_assoc. reflexivity. }
    split.
    + rewrite Hrun. reflexivity.
    + rewrite (emitted_app _ _ _ _ _ _ Hrun), Hreq. reflexivity.
Qed.

(** *** The constructor *)

(** C9. Once the base class is initialised, the constructor returns a
    task.  A false value given for [headers] or for [data], be it
    [None], an empty string, zero, [False] or an empty mapping, is
    replaced by an empty dict that is a new object: its identity was
    unused when the assignment ran, so it is neither the given object nor
    any other, and the two new dicts are different objects.  Any other
    value is kept. *)
Theorem falsy_headers_and_data_become_new_dicts
    (a : @InitArgs W) (n0 : oid) base (n1 : oid) :
  BaseOperator_init (arg_kwargs a) n0 = (Returned base, n1) ->
  exists op n',
    __init__ a n0 = (Returned op, n') /\
    (false_value (arg_headers a) ->
       exists i, headers op = PyDict i [] /\ (n1 <= i < n')%nat) /\
    (false_value (arg_data a) ->
       exists j, data op = PyDict j [] /\ (n1 <= j < n')%nat) /\
    (false_value (arg_headers a) -> false_value (arg_data a) ->
       headers op <> data op) /\
    (~ false_value (arg_headers a) -> headers op = arg_headers a) /\
    (~ false_value (arg_data a) -> data op = arg_data a).
Proof.
  intros Hbase. unfold_init. rewrite Hbase.
  destruct (truthy (arg_headers a)) eqn:Hh, (truthy (arg_data a)) eqn:Hd,
    (truthy (arg_extra_options a)); simpl;
    eexists; eexists; (split; [reflexivity | ]); simpl;
    repeat split; intros;
    repeat match goal with
           | H : false_value _ |- _ => apply truthy_false_value in H
           | H : ~ false_value _ |- _ => apply truthy_true_value in H
           end;
    try congruence;
    try (eexists; split; [reflexivity | lia]);
    try (intros Heq; inversion Heq; lia).
Qed.

(** *** Every run follows one of the paths *)

Local Abbreviation execution :=
  (execution (BaseOperator:=BaseOperator) HttpHook HttpHook_run
     determine_kwargs).

(** A path that is taken gives the result of [execute]. *)
Lemma execution_sound (context : gmap string pyval) (s : TaskRun) o evs w :
  execution context s o evs w ->
  execute context s =
  (o, {| this := this s; trace := trace s ++ evs; world := w |}).
Proof.
  intros Hrun.
  destruct Hrun as
    [ e w1 Hcall
    | response w1 check e Hcall Hsome Hkw
    | response w1 check kwargs e w2 Hcall Hsome Hkw Hret
    | response w1 check kwargs v w2 Hcall Hsome Hkw Hret Hfalse
    | response w1 w2 evs Hcall Hpass Hnone
    | response w1 w2 evs flt e Hcall Hpass Hflt Hkw
    | response w1 w2 evs flt kwargs o w3 Hcall Hpass Hflt Hkw Hret ].
  - exact (execute_raised context _ _ _ Hcall).
  - rewrite (execute_response _ _ _ _ Hcall), Hsome. unfold_monad.
    rewrite Hkw. reflexivity.
  - rewrite (execute_response _ _ _ _ Hcall), Hsome. unfold_monad.
    rewrite Hkw, Hret. simpl. rewrite <- app_assoc. reflexivity.
  - rewrite (execute_response _ _ _ _ Hcall), Hsome. unfold_monad.
    rewrite Hkw, Hret, Hfalse. simpl. rewrite <- app_assoc. reflexivity.
  - rewrite (execute_passed _ _ _ _ _ _ Hcall Hpass). unfold_exec.
    rewrite Hnone. reflexivity.
  - rewrite (execute_passed _ _ _ _ _ _ Hcall Hpass). unfold_exec.
    rewrite Hflt. simpl. rewrite Hkw. reflexivity.
  - rewrite (execute_passed _ _ _ _ _ _ Hcall Hpass).
    erewrite filter_step_outcome; [ | simpl; eassumption ..].
    cbn [this trace world]. rewrite <- !app_assoc. reflexivity.
Qed.

Lemma execution_after_check (context : gmap string pyval) (s : TaskRun)
    response w1 w2 evs :
  http_call s = (Returned response, w1) ->
  check_passes (this s) context response w1 w2 evs ->
  exists o evs' w, execution context s o evs' w.
Proof.
  intros Hcall Hpass.
  destruct (response_filter (this s)) as [flt | ] eqn:Hflt.
  - destruct (determine_kwargs flt [response] context) as [kwargs | e] eqn:Hkw.
    + destruct (call flt response kwargs w2) as [o w3] eqn:Hret.
      do 3 eexists. eapply run_filter_called; eassumption.
    + do 3 eexists. eapply run_filter_kwargs_raised; eassumption.
  - do 3 eexists. eapply run_text; eassumption.
Qed.

(** Every run takes one of the paths. *)
Lemma execution_exists (context : gmap string pyval) (s : TaskRun) :
  exists o evs w, execution context s o evs w.
Proof.
  destruct (http_call s) as [[response | e] w1] eqn:Hcall.
  - destruct (response_check (this s)) as [check | ] eqn:Hsome.
    + destruct (determine_kwargs check [response] context)
        as [kwargs | e] eqn:Hkw.
      * destruct (call check response kwargs w1) as [[v | e] w2] eqn:Hret.
        -- destruct (truthy v) eqn:Hv.
           ++ eapply execution_after_check; [eassumption | ].
              eapply check_true; eassumption.
           ++ do 3 eexists. eapply run_check_failed; eassumption.
        -- do 3 eexists. eapply run_check_raised; eassumption.
      * do 3 eexists. eapply run_check_kwargs_raised; eassumption.
    + eapply execution_after_check; [eassumption | ].
      apply check_absent. assumption.
  - do 3 eexists. apply run_hook_raised. eassumption.
Qed.

(** The path of a run, read off the result of [execute]. *)
Lemma execute_execution (context : gmap string pyval) (s : TaskRun) :
  exists evs,
    execution context s (fst (execute context s)) evs
      (world (snd (execute context s))) /\
    emitted context s = evs.
Proof.
  destruct (execution_exists context s) as (o & evs & w & Hrun).
  pose proof (execution_sound _ _ _ _ _ Hrun) as Heq.
  exists evs. rewrite (emitted_app _ _ _ _ _ _ Heq), Heq. simpl.
  split; [exact Hrun | reflexivity].
Qed.

Lemma check_passes_events (op : @SimpleHttpOperator W BaseOperator)
    context response w1 w2 (evs : list (@Event Hook)) :
  check_passes op context response w1 w2 evs ->
  hook_runs evs = 0%nat /\ calls_at ResponseFilter evs = 0%nat /\
  without_logs evs = evs.
Proof. intros H. destruct H; repeat split; reflexivity. Qed.

Lemma hook_runs_app (l k : list (@Event Hook)) :
  hook_runs (l ++ k) = (hook_runs l + hook_runs k)%nat.
Proof.
  unfold hook_runs. rewrite List.filter_app, length_app. reflexivity.
Qed.

Lemma request_events_hook_runs (s : TaskRun) response :
  hook_runs (request_events s response) = 1%nat.
Proof. unfold_events. destruct (log_response (this s)); reflexivity. Qed.

Lemma request_events_start (s : TaskRun) response (evs : list (@Event Hook)) :
  request_events s response ++ evs =
  [EvLog INFO "Calling HTTP method"; hook_event s] ++
  ((if log_response (this s) then [EvLog INFO (text response)] else []) ++
   evs).
Proof. unfold_events. rewrite <- app_assoc. reflexivity. Qed.

Lemma emitted_start (context : gmap string pyval) (s : TaskRun) :
  exists rest,
    emitted context s =
      [EvLog INFO "Calling HTTP method"; hook_event s] ++ rest /\
    hook_runs rest = 0%nat.
Proof.
  destruct (execution_exists context s) as (o & evs & w & Hrun).
  rewrite (emitted_app _ _ _ _ _ _ (execution_sound _ _ _ _ _ Hrun)).
  destruct Hrun;
    try match goal with
        | H : check_passes _ _ _ _ _ _ |- _ =>
            destruct (check_passes_events _ _ _ _ _ _ H) as (Hh & _ & _)
        end;
    rewrite ?request_events_start;
    (eexists; split; [reflexivity | ]);
    rewrite ?hook_runs_app, ?Hh;
    destruct (log_response (this s)); reflexivity.
Qed.

Lemma without_logs_request (s : TaskRun) response
    (evs : list (@Event Hook)) :
  without_logs (request_events s response ++ evs) =
  hook_event s :: without_logs evs.
Proof.
  unfold_events. unfold without_logs.
  destruct (log_response (this s)); reflexivity.
Qed.

Lemma check_passes_log_response b (op : @SimpleHttpOperator W BaseOperator)
    context response w1 w2 (evs : list (@Event Hook)) :
  check_passes op context response w1 w2 evs ->
  check_passes (with_log_response b op) context response w1 w2 evs.
Proof.
  intros H. destruct H.
  - apply check_absent. assumption.
  - eapply check_true; eassumption.
Qed.

(** Changing [log_response] changes the log records of a run and
    nothing else of it. *)
Lemma execution_log_response b (context : gmap string pyval) (s : TaskRun)
    o evs w :
  execution context s o evs w ->
  exists evs',
    execution context (on_task (with_log_response b) s) o evs' w /\
    without_logs evs' = without_logs evs.
Proof.
  intros Hrun.
  destruct Hrun as
    [ e w1 Hcall
    | response w1 check e Hcall Hsome Hkw
    | response w1 check kwargs e w2 Hcall Hsome Hkw Hret
    | response w1 check kwargs v w2 Hcall Hsome Hkw Hret Hfalse
    | response w1 w2 evs Hcall Hpass Hnone
    | response w1 w2 evs flt e Hcall Hpass Hflt Hkw
    | response w1 w2 evs flt kwargs o w3 Hcall Hpass Hflt Hkw Hret ];
    try apply (check_passes_log_response b) in Hpass.
  - eexists. split; [eapply run_hook_raised; exact Hcall | reflexivity].
  - eexists. split.
    + eapply run_check_kwargs_raised; [exact Hcall | exact Hsome | exact Hkw].
    + rewrite <- (app_nil_r (request_events _ response)).
      rewrite <- (app_nil_r (request_events s response)).
      rewrite !without_logs_request. reflexivity.
  - eexists. split.
    + eapply run_check_raised;
        [exact Hcall | exact Hsome | exact Hkw | exact Hret].
    + rewrite !without_logs_request. reflexivity.
  - eexists. split.
    + eapply run_check_failed;
        [exact Hcall | exact Hsome | exact Hkw | exact Hret | exact Hfalse].
    + rewrite !without_logs_request. reflexivity.
  - eexists. split.
    + eapply run_text; [exact Hcall | exact Hpass | exact Hnone].
    + rewrite !without_logs_request. reflexivity.
  - eexists. split.
    + eapply run_filter_kwargs_raised;
        [exact Hcall | exact Hpass | exact Hflt | exact Hkw].
    + rewrite !without_logs_request. reflexivity.
  - eexists. split.
    + eapply run_filter_called;
        [exact Hcall | exact Hpass | exact Hflt | exact Hkw | exact Hret].
    + rewrite !without_logs_request. reflexivity.
Qed.

(** *** Further properties of [execute] *)

(** X1. When [determine_kwargs] raises for the response check, [execute]
    raises that exception right after the response came in: neither
    callable is called and the world is the one the hook left. *)
Theorem check_kwargs_error_propagates
    (context : gmap string pyval) (s : TaskRun) response w1 check e :
  http_call s = (Returned response, w1) ->
  response_check (this s) = Some check ->
  determine_kwargs check [response] context = Raised e ->
  execute context s =
    (Raised e,
     {| this := this s;
        trace := trace s ++ request_events s response;
        world := w1 |})
  /\ calls_at ResponseCheck (emitted context s) = 0%nat
  /\ calls_at ResponseFilter (emitted context s) = 0%nat.
Proof.
  intros Hcall Hsome Hkw.
  pose proof (execution_sound _ _ _ _ _
                (run_check_kwargs_raised HttpHook HttpHook_run
                   determine_kwargs context s response w1 check e
                   Hcall Hsome Hkw)) as Hrun.
  split; [exact Hrun | ].
  rewrite (emitted_app _ _ _ _ _ _ Hrun), !request_events_calls.
  split; reflexivity.
Qed.

(** X2. When the response check itself raises, [execute] raises that
    very exception, the run ends with the call of the check and the
    filter is not called. *)
Theorem check_exception_propagates
    (context : gmap string pyval) (s : TaskRun)
    response w1 check kwargs e w2 :
  http_call s = (Returned response, w1) ->
  response_check (this s) = Some check ->
  determine_kwargs check [response] context = Returned kwargs ->
  call check response kwargs w1 = (Raised e, w2) ->
  execute context s =
    (Raised e,
     {| this := this s;
        trace := trace s ++ request_events s response ++
                 [EvCall ResponseCheck response kwargs];
        world := w2 |})
  /\ calls_at ResponseFilter (emitted context s) = 0%nat.
Proof.
  intros Hcall Hsome Hkw Hret.
  pose proof (execution_sound _ _ _ _ _
                (run_check_raised HttpHook HttpHook_run determine_kwargs
                   context s response w1 check kwargs e w2
                   Hcall Hsome Hkw Hret)) as Hrun.
  split; [exact Hrun | ].
  rewrite (emitted_app _ _ _ _ _ _ Hrun), calls_at_app, request_events_calls.
  reflexivity.
Qed.


(** X4. Every run of [execute], whatever its outcome, runs the hook
    exactly once, and the run of the hook comes right after the fixed
    log message, before anything else. *)
Theorem hook_runs_once_and_first
    (context : gmap string pyval) (s : TaskRun) :
  hook_runs (emitted context s) = 1%nat
  /\ exists rest,
       emitted context s =
         [EvLog INFO "Calling HTTP method"; hook_event s] ++ rest.
Proof.
  destruct (emitted_start context s) as (rest & Hem & Hrest).
  split.
  - rewrite Hem, hook_runs_app, Hrest. reflexivity.
  - exists rest. exact Hem.
Qed.




(** X8. The [log_response] attribute bears on the log only: with the
    attribute set either way, a run has the same outcome, leaves the
    same world, and performs the same hook run and calls. *)
Theorem log_response_only_affects_log
    (b : bool) (context : gmap string pyval) (s : TaskRun) :
  let s' := on_task (with_log_response b) s in
  fst (execute context s') = fst (execute context s)
  /\ world (snd (execute context s')) = world (snd (execute context s))
  /\ without_logs (emitted context s') = without_logs (emitted context s).
Proof.
  intros s'.
  destruct (execution_exists context s) as (o & evs & w & Hrun).
  destruct (execution_log_response b _ _ _ _ _ Hrun) as (evs' & Hrun' & Hev).
  pose proof (execution_sound _ _ _ _ _ Hrun) as Heq.
  pose proof (execution_sound _ _ _ _ _ Hrun') as Heq'.
  fold s' in Heq'.
  rewrite (emitted_app _ _ _ _ _ _ Heq), (emitted_app _ _ _ _ _ _ Heq').
  rewrite Heq, Heq'. simpl. repeat split. exact Hev.
Qed.

(** *** Further properties of the constructor *)

(** X9. A false value given for [extra_options] is replaced by a new
    empty dict, which is a different object from what [headers] and
    [data] hold; a true value is kept.  The constructor creates one dict
    for each of the three mapping arguments that is false, and none
    else. *)
Theorem falsy_extra_options_becomes_new_dict
    (a : @InitArgs W) (n0 : oid) base (n1 : oid) :
  BaseOperator_init (arg_kwargs a) n0 = (Returned base, n1) ->
  exists op n',
    __init__ a n0 = (Returned op, n') /\
    n' = (n1 + falsy_count a)%nat /\
    (truthy (arg_extra_options a) = false ->
       exists k, extra_options op = PyDict k [] /\ (n1 <= k < n')%nat /\
                 extra_options op <> headers op /\
                 extra_options op <> data op) /\
    (truthy (arg_extra_options a) = true ->
       extra_options op = arg_extra_options a).
Proof.
  intros Hbase. unfold_init. unfold falsy_count. rewrite Hbase. simpl.
  destruct (truthy (arg_headers a)) eqn:Hh,
           (truthy (arg_data a)) eqn:Hd,
           (truthy (arg_extra_options a)) eqn:Hx; simpl;
    eexists; eexists; (split; [reflexivity | ]); simpl;
    (split; [lia | ]); split; intros; try discriminate; try reflexivity;
    (eexists; split; [reflexivity | ]); (split; [lia | ]);
    split; intros Heq;
    try (rewrite <- Heq in Hh; discriminate);
    try (rewrite <- Heq in Hd; discriminate);
    inversion Heq; lia.
Qed.


(** *** The task object in the store *)

Variable task_of : W -> @SimpleHttpOperator W BaseOperator.
Variable log_property : W -> W.

Ltac unfold_shared := unfold execute_shared; frame_unfold; cbv zeta.
Ltac unfold_keeps := unfold keeps_task in *.
Ltac unfold_run := unfold run.
Ltac unfold_prims :=
  unfold self_shared, log_info_shared, self, log_info, run, invoke, bind,
    emit, on_world, lift, ret, raise.

Local Abbreviation execute_shared :=
  (execute_shared HttpHook HttpHook_run determine_kwargs task_of
     log_property).
Local Abbreviation self_shared :=
  (self_shared (Hook:=Hook) task_of).
Local Abbreviation log_info_shared :=
  (log_info_shared (BaseOperator:=BaseOperator) (Hook:=Hook) log_property).
Local Abbreviation task_unchanged :=
  (task_unchanged HttpHook HttpHook_run determine_kwargs task_of
     log_property).
Local Abbreviation keeps_task := (keeps_task task_of).
Local Abbreviation M := (@M W BaseOperator Hook).

(** The object in the store is [op]. *)
Local Abbreviation in_store op :=
  (fun (_ : @SimpleHttpOperator W BaseOperator) (w : W) => task_of w = op).

(** The object in the store is [op], and so is the one in the run
    state. *)
Local Abbreviation in_both op :=
  (fun (t : @SimpleHttpOperator W BaseOperator) (w : W) =>
     t = op /\ task_of w = op).

Lemma agrees_bind {A B} Inv (m m' : M A) (k k' : A -> M B) Q R :
  agrees Inv m m' Q ->
  (forall a, Q a -> agrees Inv (k a) (k' a) R) ->
  agrees Inv (bind m k) (bind m' k') R.
Proof.
  intros Hm Hk s Hinv. destruct (Hm s Hinv) as (Heq & Hinv' & HQ).
  unfold bind. rewrite <- Heq.
  destruct (m s) as [[a | e] s1]; simpl in *.
  - apply Hk; [apply HQ; reflexivity | exact Hinv'].
  - split; [reflexivity | ]. split; [exact Hinv' | ]. intros a H. discriminate.
Qed.

Lemma agrees_ret {A} Inv (a : A) (Q : A -> Prop) :
  Q a -> agrees Inv (ret a : M A) (ret a) Q.
Proof.
  intros HQ s Hinv. split; [reflexivity | ]. split; [exact Hinv | ].
  intros a' H. inversion H. subst. exact HQ.
Qed.

Lemma agrees_raise {A} Inv e (Q : A -> Prop) :
  agrees Inv (raise e : M A) (raise e) Q.
Proof.
  intros s Hinv. split; [reflexivity | ]. split; [exact Hinv | ].
  intros a H. discriminate.
Qed.

Lemma agrees_lift {A} Inv (r : Outcome A) :
  agrees Inv (lift r : M A) (lift r) (fun _ => True).
Proof.
  intros s Hinv. split; [reflexivity | ]. split; [exact Hinv | ].
  intros a H. exact I.
Qed.

Lemma agrees_on_world {A} Inv (f : W -> Outcome A * W) :
  (forall t w, Inv t w -> Inv t (snd (f w))) ->
  agrees Inv (on_world f : M A) (on_world f) (fun _ => True).
Proof.
  intros Hf s Hinv. split; [reflexivity | ]. unfold on_world.
  specialize (Hf _ _ Hinv). destruct (f (world s)) as [r w]. simpl in *.
  split; [exact Hf | ]. intros a H. exact I.
Qed.

Lemma agrees_emit_then {A} Inv (ev : @Event Hook) (f : W -> Outcome A * W) :
  (forall t w, Inv t w -> Inv t (snd (f w))) ->
  agrees Inv (bind (emit ev) (fun _ => on_world f) : M A)
    (bind (emit ev) (fun _ => on_world f)) (fun _ => True).
Proof.
  intros Hf s Hinv. split; [reflexivity | ]. unfold bind, emit, on_world.
  simpl. specialize (Hf _ _ Hinv). destruct (f (world s)) as [r w].
  simpl in *. split; [exact Hf | ]. intros a H. exact I.
Qed.

Lemma agrees_self_shared {A} op (attr : SimpleHttpOperator -> A) :
  agrees (in_store op) (self_shared attr) (self_shared attr)
    (fun a => a = attr op).
Proof.
  intros s Hinv. simpl in Hinv. unfold_prims. simpl.
  split; [reflexivity | ]. split; [exact Hinv | ].
  intros a H. inversion H. rewrite Hinv. reflexivity.
Qed.

Lemma agrees_self_refines {A} op (attr : SimpleHttpOperator -> A) :
  agrees (in_both op) (self_shared attr) (self attr) (fun a => a = attr op).
Proof.
  intros s [Ht Hw]. unfold_prims. simpl. rewrite Ht, Hw.
  split; [reflexivity | ]. split; [split; reflexivity | ].
  intros a H. inversion H. reflexivity.
Qed.

Lemma agrees_log_shared op msg :
  (forall w, task_of w = op -> task_of (log_property w) = op) ->
  agrees (in_store op) (log_info_shared msg) (log_info_shared msg)
    (fun _ => True).
Proof.
  intros Hlog s Hinv. split; [reflexivity | ]. unfold_prims. simpl.
  split; [apply Hlog; exact Hinv | ]. intros a H. exact I.
Qed.

Lemma agrees_log_refines op msg :
  (forall w, log_property w = w) ->
  agrees (in_both op) (log_info_shared msg) (log_info msg) (fun _ => True).
Proof.
  intros Hlog s Hinv. unfold_prims. simpl. rewrite Hlog.
  split; [reflexivity | ]. split; [exact Hinv | ]. intros a H. exact I.
Qed.

Ltac keeps_inv :=
  let t := fresh "t" in
  let w := fresh "w" in
  let Hi := fresh "Hi" in
  intros t w Hi;
  first
    [ solve [eauto]
    | destruct Hi; split; [assumption | solve [eauto]] ].

Ltac agrees_step :=
  lazymatch goal with
  | |- agrees _ (bind (self_shared _) _) (bind _ _) _ =>
      eapply agrees_bind;
      [ first [apply agrees_self_shared | apply agrees_self_refines]
      | let a := fresh "a" in
        let Ha := fresh "Ha" in
        intros a Ha; rewrite Ha; clear a Ha ]
  | |- agrees _ (bind _ _) (bind _ _) _ =>
      eapply (agrees_bind _ _ _ _ _ (fun _ => True)); [ | intros ? _ ]
  | |- agrees _ (match ?x with _ => _ end) _ _ => destruct x eqn:?
  | |- agrees _ (ret _) _ _ => apply agrees_ret; exact I
  | |- agrees _ (raise _) _ _ => apply agrees_raise
  | |- agrees _ (lift _) _ _ => apply agrees_lift
  | |- agrees _ (log_info_shared _) _ _ =>
      first [apply agrees_log_shared | apply agrees_log_refines]; assumption
  | |- agrees _ (run _ _ _ _ _ _) _ _ =>
      unfold_run; apply agrees_emit_then; keeps_inv
  | |- agrees _ (invoke _ _ _ _) _ _ =>
      unfold invoke; apply agrees_emit_then; keeps_inv
  end.


(** Under the same conditions, and with a [self.log] that leaves the
    store alone, the run on the object in the store is the run of
    [execute] on the object in the run state. *)
Lemma execute_shared_refines op (context : gmap string pyval) :
  (forall w, log_property w = w) ->
  keeps_task op
    (HttpHook_run (HttpHook (method op) (http_conn_id op) (auth_type op))
       (endpoint op) (data op) (headers op) (extra_options op)) ->
  (forall check response kwargs,
     response_check op = Some check ->
     keeps_task op (call check response kwargs)) ->
  (forall flt response kwargs,
     response_filter op = Some flt ->
     keeps_task op (call flt response kwargs)) ->
  agrees (in_both op) (execute_shared context) (execute context)
    (fun _ => True).
Proof.
  unfold_keeps. intros Hlog Hhook Hcheck Hflt.
  unfold_shared. repeat agrees_step.
Qed.

Lemma execute_shared_is_execute (context : gmap string pyval) (s : TaskRun) :
  this s = task_of (world s) ->
  (forall w, log_property w = w) ->
  keeps_task (this s) (HttpHook_run (HttpHook (method (this s)) (http_conn_id (this s))
                      (auth_type (this s)))
       (endpoint (this s)) (data (this s)) (headers (this s))
       (extra_options (this s))) ->
  (forall check response kwargs,
     response_check (this s) = Some check ->
     keeps_task (this s) (call check response kwargs)) ->
  (forall flt response kwargs,
     response_filter (this s) = Some flt ->
     keeps_task (this s) (call flt response kwargs)) ->
  execute_shared context s = execute context s.
Proof.
  intros Hthis Hlog Hhook Hcheck Hflt.
  apply (execute_shared_refines (this s) context Hlog Hhook Hcheck Hflt).
  split; [reflexivity | symmetry; exact Hthis].
Qed.


End Contract.

(** ** The contract on the concrete deployment *)

Section Runs.

Import Demo.

Local Abbreviation run_of op := (Demo.execute Demo.context (start op)).
Local Abbreviation events_of op :=
  (emitted HttpHook HttpHook_run determine_kwargs_spec Demo.context
     (start op)).
Local Abbreviation run_reserved s := (execute_reserved Demo.context s).
Local Abbreviation events_reserved s :=
  (emitted HttpHook HttpHook_run determine_kwargs_reserved Demo.context s).

(** The values Python takes for false, and some it takes for true. *)
Example truthy_values :
  map truthy [PyBool false; PyNone; PyInt 0; PyStr EmptyString; PyTuple [];
              PyList 0 []; PyDict 0 []] = repeat false 7
  /\ map truthy [PyBool true; PyInt 2; PyInt (-1); PyStr "no";
                 PyTuple [PyNone]; PyList 0 [PyBool false];
                 PyDict 0 [(PyStr "a", PyNone)]] = repeat true 7.
Proof. split; reflexivity. Qed.

(** A check that returns [False]: the filter's counter stays untouched. *)
Lemma check_false_raises_without_filter_run :
  let op := task "/ping" true (Some check_false) (Some filter_wrap) in
  run_of op =
    (Raised ResponseValidationError,
     {| this := op;
        trace := [EvLog INFO "Calling HTTP method"; hook_run_event "/ping";
                  EvLog INFO "pong";
                  EvCall ResponseCheck pong (kwargs_for check_false)];
        world := 1%nat |})
  /\ calls_at ResponseFilter (events_of op) = 0%nat.
Proof.
  exact (check_false_raises_without_filter HttpHook HttpHook_run
           determine_kwargs_spec Demo.context
           (start (task "/ping" true (Some check_false) (Some filter_wrap)))
           pong 0%nat check_false (kwargs_for check_false) 1%nat
           eq_refl eq_refl eq_refl eq_refl).
Defined.



Lemma no_callables_returns_text_run :
  let op := task "/ping" true None None in
  run_of op =
    (Returned (PyStr "pong"),
     {| this := op;
        trace := [EvLog INFO "Calling HTTP method"; hook_run_event "/ping";
                  EvLog INFO "pong"];
        world := 0%nat |}).
Proof.
  exact (no_callables_returns_text HttpHook HttpHook_run
           determine_kwargs_spec Demo.context
           (start (task "/ping" true None None)) pong 0%nat
           eq_refl eq_refl eq_refl).
Defined.

(** The sentence on logging fails on the plainest run: [log_response]
    is off and there is one emission, the fixed message. *)
Lemma logs_zero_or_one_fails :
  ~ logs_zero_or_one HttpHook HttpHook_run determine_kwargs_spec
      Demo.context (start (task "/ping" false None None)).
Proof. unfold logs_zero_or_one. vm_compute. discriminate. Qed.

Lemma submission_error_propagates_run :
  let op := task "/down" true (Some check_length) (Some filter_wrap) in
  run_of op =
    (Raised connection_error,
     {| this := op;
        trace := [EvLog INFO "Calling HTTP method"; hook_run_event "/down"];
        world := 0%nat |})
  /\ hook_runs (events_of op) = 1%nat
  /\ log_records (events_of op) = [EvLog INFO "Calling HTTP method"]
  /\ calls_at ResponseCheck (events_of op) = 0%nat
  /\ calls_at ResponseFilter (events_of op) = 0%nat.
Proof.
  exact (submission_error_propagates HttpHook HttpHook_run
           determine_kwargs_spec Demo.context
           (start (task "/down" true (Some check_length) (Some filter_wrap)))
           connection_error 0%nat eq_refl).
Defined.


(** Checks that return each of the false values, none of them [False]
    but one: the run raises the validation error.  Checks that return
    true values that are not [True]: the run goes on to the end. *)
Lemma check_gate_is_truthiness_run :
  let failed v :=
    fst (run_of (task "/ping" false (Some (check_returning v)) None)) =
    Raised ResponseValidationError in
  let passed v :=
    fst (run_of (task "/ping" false (Some (check_returning v)) None)) =
    Returned (PyStr "pong") in
  failed PyNone /\ failed (PyBool false) /\ failed (PyInt 0) /\
  failed (PyStr EmptyString) /\ failed (PyTuple []) /\
  failed (PyList 0 []) /\ failed (PyDict 0 []) /\
  passed (PyBool true) /\ passed (PyInt 4) /\ passed (PyStr "False") /\
  passed (PyList 0 [PyBool false]).
Proof.
  pose proof (fun v =>
    check_gate_is_truthiness HttpHook HttpHook_run determine_kwargs_spec
      Demo.context
      (start (task "/ping" false (Some (check_returning v)) None))
      pong 0%nat (check_returning v) (kwargs_for (check_returning v)) v
      1%nat eq_refl eq_refl eq_refl eq_refl) as gate.
  simpl in gate.
  repeat split;
    first
      [ rewrite (proj1 (gate _)) by constructor; reflexivity
      | rewrite (proj1 (proj2 (gate _))) by (intros H; inversion H);
        reflexivity ].
Defined.

Lemma body_logged_before_check_run :
  let op := task "/ping" true (Some check_false) None in
  (exists rest,
     events_of op =
       [EvLog INFO "Calling HTTP method"; hook_run_event "/ping";
        EvLog INFO "pong";
        EvCall ResponseCheck pong (kwargs_for check_false)] ++ rest)
  /\ (forall v, Returned (PyBool false) = Returned v -> truthy v = false ->
      fst (run_of op) = Raised ResponseValidationError /\
      events_of op =
        [EvLog INFO "Calling HTTP method"; hook_run_event "/ping";
         EvLog INFO "pong";
         EvCall ResponseCheck pong (kwargs_for check_false)]).
Proof.
  exact (body_logged_before_check HttpHook HttpHook_run
           determine_kwargs_spec Demo.context
           (start (task "/ping" true (Some check_false) None))
           pong 0%nat check_false (kwargs_for check_false)
           (Returned (PyBool false)) 1%nat
           eq_refl eq_refl eq_refl eq_refl eq_refl).
Defined.

(** An empty string for [data] and zero for [headers]; [None] and
    [False]; and one empty dict, the object 3, given for both: each time
    the task holds two new empty dicts, five objects existing before. *)
Lemma falsy_headers_and_data_become_new_dicts_run :
  let replaced h d :=
    exists op n' i j,
      __init__ BaseOperator_init (args_with h d) 5%nat = (Returned op, n') /\
      headers op = PyDict i [] /\ data op = PyDict j [] /\
      (5 <= i < n')%nat /\ (5 <= j < n')%nat /\ headers op <> data op in
  replaced (PyInt 0) (PyStr EmptyString)
  /\ replaced PyNone (PyBool false)
  /\ replaced (PyDict 3 []) (PyDict 3 []).
Proof.
  pose proof (fun h d =>
    falsy_headers_and_data_become_new_dicts BaseOperator_init
      (args_with h d) 5%nat ∅ 5%nat eq_refl) as init.
  simpl in init.
  repeat split;
    match goal with
    | |- exists op n' i j, __init__ _ (args_with ?h ?d) _ = _ /\ _ =>
        destruct (init h d) as (op & n' & Hinit & Hh & Hd & Hne & _);
        destruct (Hh ltac:(constructor)) as (i & Hi & Hri);
        destruct (Hd ltac:(constructor)) as (j & Hj & Hrj);
        exists op, n', i, j;
        repeat split;
        try assumption; try lia;
        apply Hne; constructor
    end.
Defined.

(** A check whose parameter is named like a context key, with a helper
    that refuses such callables: the check is not called. *)
Lemma check_kwargs_error_propagates_run :
  let s := start (task "/ping" true (Some check_ds) (Some filter_wrap)) in
  run_reserved s =
    (Raised reserved_key_error,
     {| this := this s;
        trace := [EvLog INFO "Calling HTTP method"; hook_run_event "/ping";
                  EvLog INFO "pong"];
        world := 0%nat |})
  /\ calls_at ResponseCheck (events_reserved s) = 0%nat
  /\ calls_at ResponseFilter (events_reserved s) = 0%nat.
Proof.
  exact (check_kwargs_error_propagates HttpHook HttpHook_run
           determine_kwargs_reserved Demo.context
           (start (task "/ping" true (Some check_ds) (Some filter_wrap)))
           pong 0%nat check_ds reserved_key_error
           eq_refl eq_refl eq_refl).
Defined.

Lemma check_exception_propagates_run :
  let op := task "/ping" false (Some check_raises) (Some filter_wrap) in
  run_of op =
    (Raised (PyException "KeyError" "status"),
     {| this := op;
        trace := [EvLog INFO "Calling HTTP method"; hook_run_event "/ping";
                  EvCall ResponseCheck pong (kwargs_for check_raises)];
        world := 1%nat |})
  /\ calls_at ResponseFilter (events_of op) = 0%nat.
Proof.
  exact (check_exception_propagates HttpHook HttpHook_run
           determine_kwargs_spec Demo.context
           (start (task "/ping" false (Some check_raises) (Some filter_wrap)))
           pong 0%nat check_raises (kwargs_for check_raises)
           (PyException "KeyError" "status") 1%nat
           eq_refl eq_refl eq_refl eq_refl).
Defined.





Lemma falsy_extra_options_becomes_new_dict_run :
  exists op n',
    __init__ BaseOperator_init falsy_args 5%nat = (Returned op, n') /\
    n' = (5 + falsy_count falsy_args)%nat /\
    (truthy PyNone = false ->
       exists k, extra_options op = PyDict k [] /\ (5 <= k < n')%nat /\
                 extra_options op <> headers op /\
                 extra_options op <> data op) /\
    (truthy PyNone = true -> extra_options op = PyNone).
Proof.
  exact (falsy_extra_options_becomes_new_dict BaseOperator_init
           falsy_args 5%nat ∅ 5%nat eq_refl).
Defined.




End Runs.
